(** * pypulsar: the PRESTO [.dat] time-series reader ([formats/datfile.py])

    A shallow embedding of the [Datfile] class and of [correct_infdata],
    followed by the properties of the reader that the specification states.

    Modelling conventions.
    - Python [int] is [Z].
    - A Python [float] is modelled by the rational it denotes ([Q]), and
      [+], [-], [*], [/] by the operations of [Q]: the development covers
      control flow, the rounding of times to sample indices and the
      bookkeeping of the two clocks, and a statement about a clock names the
      expression that the code evaluates; the rounding error of binary64
      arithmetic is outside the model.  Equality of clock values is
      therefore [Qeq] ([==]) wherever arithmetic is involved.  The two
      literals that [correct_infdata] compares a remainder with stand for
      the exact values of their binary64, so that the test is the one the
      code makes on a sample interval that is a binary64.
    - A method of the object is a computation in a state-and-exception
      monad over the record of the object's attributes.  An exception keeps
      the mutations made before it was raised, as in Python.
    - An attribute that may be absent ([infdata.epoch], [currmjd_actual],
      [currmjd_desired]) is an [option]; reading an absent attribute raises
      [AttributeError].
    - [None] returned by a read is [None] of an [option]. *)

From Stdlib Require Import ZArith QArith Qround Qabs List String Ascii Bool Lia Lqa.
Import ListNotations.

Local Open Scope Z_scope.

(* ------------------------------------------------------------------ *)
(** ** Numbers *)

(** [x < y] on floats, as a boolean. *)
Definition Qlt_bool (x y : Q) : bool := negb (Qle_bool y x).

(** [np.round(x)] with the default [decimals=0]: the nearest integer, a tie
    going to the even neighbour; [rint] is its value as an integer. *)
Definition rint (x : Q) : Z :=
  let f := Qfloor x in
  match Qcompare (x - inject_Z f) (1 # 2) with
  | Lt => f
  | Gt => f + 1
  | Eq => if Z.even f then f else f + 1
  end.

Definition np_round (x : Q) : Q := inject_Z (rint x).

(** [int(x)] of a float: truncation toward zero. *)
Definition int_of_float (x : Q) : Z :=
  if Qle_bool 0 x then Qfloor x else Qceiling x.

(** [np.fmod(x, y)]: the remainder of the truncated division, with the sign
    of [x]. *)
Definition np_fmod (x y : Q) : Q := x - inject_Z (int_of_float (x / y)) * y.

(** [np.fabs] applied to a boolean: [True] is 1.0 and [False] is 0.0. *)
Definition float_of_bool (b : bool) : Q := if b then 1 else 0.
Definition np_fabs (x : Q) : Q := Qabs x.

(** Truth value of a float in a condition. *)
Definition truthy (x : Q) : bool := negb (Qeq_bool x 0).

(** Modelled from the spec: [psr_utils.SECPERDAY], a constant of the PRESTO
    library that is not under src/; the spec divides seconds by 86400 to get
    days. *)
Definition SECPERDAY : Q := 86400.

(* ------------------------------------------------------------------ *)
(** ** Exceptions *)

Inductive exn : Type :=
| TypeError (msg : string)
| NotImplementedError (msg : string)
| AttributeError (attr : string)
| ZeroDivisionError
| IOError (msg : string)
| OSError (msg : string)
| ValueError (msg : string)
| UnboundLocalError (name : string).

Inductive result (A : Type) : Type :=
| Ok (a : A)
| Raise (e : exn).
Arguments Ok {A} a.
Arguments Raise {A} e.

(** Float division [x / y] of Python floats. *)
Definition float_div (x y : Q) : result Q :=
  if Qeq_bool y 0 then Raise ZeroDivisionError else Ok (x / y)%Q.

(* ------------------------------------------------------------------ *)
(** ** Strings *)

(** [s.endswith(suffix)]. *)
Definition endswith (s suffix : string) : bool :=
  let n := String.length s in
  let m := String.length suffix in
  (m <=? n)%nat && String.eqb (substring (n - m) m s) suffix.

(** [s[:-k]]. *)
Definition drop_last (k : nat) (s : string) : string :=
  substring 0 (String.length s - k) s.

Definition lower_ascii (c : ascii) : ascii :=
  let n := nat_of_ascii c in
  if ((65 <=? n) && (n <=? 90))%nat then ascii_of_nat (n + 32) else c.

(** [s.lower()]. *)
Fixpoint lower (s : string) : string :=
  match s with
  | EmptyString => EmptyString
  | String c s' => String (lower_ascii c) (lower s')
  end.

(** [needle in hay]. *)
Fixpoint contains (needle hay : string) : bool :=
  prefix needle hay ||
  match hay with
  | EmptyString => false
  | String _ hay' => contains needle hay'
  end.

(* ------------------------------------------------------------------ *)
(** ** The metadata record *)

(** Modelled from the spec: the [infodata] class of the PRESTO library (not
    under src/), through the fields the reader uses: sample interval [dt],
    sample count [N], optional [epoch], telescope, instrument, [lofreq],
    channel width, bandwidth and dispersion measure. *)
Module infodata.
Record t : Type := mk {
  telescope : string;
  instrument : string;
  N : Z;
  dt : Q;
  epoch : option Q;
  DM : Q;
  lofreq : Q;
  BW : Q;
  chan_width : Q
}.

Definition set_lofreq (v : Q) (i : t) : t :=
  mk (telescope i) (instrument i) (N i) (dt i) (epoch i) (DM i) v (BW i)
     (chan_width i).

Definition set_epoch (v : Q) (i : t) : t :=
  mk (telescope i) (instrument i) (N i) (dt i) (Some v) (DM i) (lofreq i)
     (BW i) (chan_width i).

(** [hasattr(inf, 'epoch')]. *)
Definition has_epoch (i : t) : bool :=
  match epoch i with Some _ => true | None => false end.
End infodata.

(** Computations that update a metadata record in place. *)
Definition InfM (A : Type) : Type := infodata.t -> result A * infodata.t.

(** [if inf.epoch > 0.0: inf.epoch += delta]; reading an absent [epoch]
    raises. *)
Definition bump_epoch_if_positive (delta : Q) : InfM unit := fun inf =>
  match infodata.epoch inf with
  | None => (Raise (AttributeError "epoch"), inf)
  | Some e =>
      if Qlt_bool 0 e then (Ok tt, infodata.set_epoch (e + delta) inf)
      else (Ok tt, inf)
  end.

(** The literals [8.192e-05] and [1e-12]: the values of their binary64,
    [3022314549036573 / 2^65] and [4951760157141521 / 2^92].  [np.fmod] is
    exact, so on a sample interval that is a binary64 the remainder below is
    the one the code computes. *)
Definition lit_8_192e_05 : Q := 3022314549036573 # 36893488147419103232.
Definition lit_1e_12 : Q := 4951760157141521 # 4951760157141521099596496896.

Definition correct_infdata : InfM unit := fun inf =>
  if String.eqb (infodata.telescope inf) "GBT" then
    if truthy (np_fabs (float_of_bool
                 (Qlt_bool (np_fmod (infodata.dt inf) lit_8_192e_05)
                           lit_1e_12)))
       && (contains "spigot" (lower (infodata.instrument inf))
           || negb (contains "guppi" (lower (infodata.instrument inf))))
    then
      if Qeq_bool (infodata.chan_width inf) (800 / 1024) then
        let inf := infodata.set_lofreq
                     (infodata.lofreq inf - (1 # 2) * infodata.chan_width inf)
                     inf in
        bump_epoch_if_positive ((39365 # 1000000) / 86400) inf
      else if Qeq_bool (infodata.chan_width inf) (800 / 2048) then
        let inf := infodata.set_lofreq
                     (infodata.lofreq inf - (1 # 2) * infodata.chan_width inf)
                     inf in
        match infodata.epoch inf with
        | None => (Raise (AttributeError "epoch"), inf)
        | Some e =>
            if Qlt_bool e 53700 then
              (* [inf.tepoch += ...]: the record has no [tepoch] *)
              if Qlt_bool 0 e then (Raise (AttributeError "tepoch"), inf)
              else (Ok tt, inf)
            else bump_epoch_if_positive ((39365 # 1000000) / 86400) inf
        end
      else if Qeq_bool (infodata.chan_width inf) (50 / 1024)
              || Qeq_bool (infodata.chan_width inf) (50 / 2048) then
        let inf := infodata.set_lofreq
                     (infodata.lofreq inf + (1 # 2) * infodata.chan_width inf)
                     inf in
        bump_epoch_if_positive ((39450 # 1000000) / 86400) inf
      else (Ok tt, inf)
    else (Ok tt, inf)
  else (Ok tt, inf).

(* ------------------------------------------------------------------ *)
(** ** The open file *)

(** The file object behind [self.datfile]: the stored samples, in order, and
    the current position as a byte offset. *)
Record file : Type := mkfile {
  samples : list Q;
  offset : Z
}.

(** The largest position of a file, [2^63 - 1]. *)
Definition max_position : Z := 9223372036854775807.

(** [f.seek(off)]: a negative position is refused by the file object, one
    beyond the largest position by the operating system; any other is
    accepted, within the file or beyond its end. *)
Definition file_seek (off : Z) (f : file) : result file :=
  if off <? 0 then Raise (ValueError "negative seek position")
  else if max_position <? off then
    Raise (OSError "[Errno 22] Invalid argument")
  else Ok (mkfile (samples f) off).

(** [np.fromfile(f, dtype, count)]: the items from the current position, at
    most [count] of them, all of them when [count] is negative; the position
    moves past the items read. *)
Definition np_fromfile (itemsize count : Z) (f : file) : list Q * file :=
  let rest := skipn (Z.to_nat (offset f / itemsize)) (samples f) in
  let blk := if count <? 0 then rest else firstn (Z.to_nat count) rest in
  (blk, mkfile (samples f) (offset f + itemsize * Z.of_nat (List.length blk))).

(* ------------------------------------------------------------------ *)
(** ** The reader object *)

Record Datfile : Type := mkDatfile {
  datfn : string;
  bytes_per_sample : Z;
  basefn : string;
  datfile : file;
  inffn : string;
  infdata : infodata.t;
  currsample : Z;
  currtime_actual : Q;
  currtime_desired : Q;
  currmjd_actual : option Q;
  currmjd_desired : option Q
}.

Definition set_datfile (v : file) (s : Datfile) : Datfile :=
  mkDatfile (datfn s) (bytes_per_sample s) (basefn s) v (inffn s) (infdata s)
            (currsample s) (currtime_actual s) (currtime_desired s)
            (currmjd_actual s) (currmjd_desired s).

Definition set_currsample (v : Z) (s : Datfile) : Datfile :=
  mkDatfile (datfn s) (bytes_per_sample s) (basefn s) (datfile s) (inffn s)
            (infdata s) v (currtime_actual s) (currtime_desired s)
            (currmjd_actual s) (currmjd_desired s).

Definition set_currtime_actual (v : Q) (s : Datfile) : Datfile :=
  mkDatfile (datfn s) (bytes_per_sample s) (basefn s) (datfile s) (inffn s)
            (infdata s) (currsample s) v (currtime_desired s)
            (currmjd_actual s) (currmjd_desired s).

Definition set_currtime_desired (v : Q) (s : Datfile) : Datfile :=
  mkDatfile (datfn s) (bytes_per_sample s) (basefn s) (datfile s) (inffn s)
            (infdata s) (currsample s) (currtime_actual s) v
            (currmjd_actual s) (currmjd_desired s).

Definition set_currmjd_actual (v : Q) (s : Datfile) : Datfile :=
  mkDatfile (datfn s) (bytes_per_sample s) (basefn s) (datfile s) (inffn s)
            (infdata s) (currsample s) (currtime_actual s)
            (currtime_desired s) (Some v) (currmjd_desired s).

Definition set_currmjd_desired (v : Q) (s : Datfile) : Datfile :=
  mkDatfile (datfn s) (bytes_per_sample s) (basefn s) (datfile s) (inffn s)
            (infdata s) (currsample s) (currtime_actual s)
            (currtime_desired s) (currmjd_actual s) (Some v).

(** *** The monad of methods *)

Definition M (A : Type) : Type := Datfile -> result A * Datfile.

Definition ret {A : Type} (a : A) : M A := fun s => (Ok a, s).

Definition raise {A : Type} (e : exn) : M A := fun s => (Raise e, s).

Definition bind {A B : Type} (m : M A) (k : A -> M B) : M B := fun s =>
  match m s with
  | (Ok a, s') => k a s'
  | (Raise e, s') => (Raise e, s')
  end.

Definition get : M Datfile := fun s => (Ok s, s).

Definition modify (f : Datfile -> Datfile) : M unit := fun s => (Ok tt, f s).

(** Lifting of a fallible pure computation. *)
Definition lift {A : Type} (r : result A) : M A := fun s => (r, s).

Declare Scope meth_scope.
Delimit Scope meth_scope with meth.
Notation "x <- c ;; k" := (bind c (fun x => k))
  (at level 61, c at next level, right associativity) : meth_scope.
Notation "c ;; k" := (bind c (fun _ => k))
  (at level 61, right associativity) : meth_scope.
Local Open Scope meth_scope.

(** [self.currmjd_actual] and [self.currmjd_desired], read. *)
Definition get_currmjd_actual : M Q := fun s =>
  match currmjd_actual s with
  | Some v => (Ok v, s)
  | None => (Raise (AttributeError "currmjd_actual"), s)
  end.

Definition get_currmjd_desired : M Q := fun s =>
  match currmjd_desired s with
  | Some v => (Ok v, s)
  | None => (Raise (AttributeError "currmjd_desired"), s)
  end.

(** [self.datfile.seek(off)]. *)
Definition datfile_seek (off : Z) : M unit := fun s =>
  match file_seek off (datfile s) with
  | Ok f => (Ok tt, set_datfile f s)
  | Raise e => (Raise e, s)
  end.

(** [np.fromfile(self.datfile, dtype=self.dtype, count=count)]. *)
Definition datfile_fromfile (count : Z) : M (list Q) := fun s =>
  let '(blk, f) := np_fromfile (bytes_per_sample s) count (datfile s) in
  (Ok blk, set_datfile f s).

(** *** Methods *)

Definition __read (n : Z) : M (option (list Q)) :=
  self <- get ;;
  let new_curr_sample := currsample self + n in
  if new_curr_sample >? infodata.N (infdata self) then ret None
  else
    modify (set_currsample new_curr_sample) ;;
    (if infodata.has_epoch (infdata self) then
       mjd <- get_currmjd_actual ;;
       modify (set_currmjd_actual
                 (mjd + infodata.dt (infdata self) * inject_Z n / SECPERDAY))
     else ret tt) ;;
    modify (set_currtime_actual
              (currtime_actual self + infodata.dt (infdata self) * inject_Z n)) ;;
    data <- datfile_fromfile n ;;
    ret (Some data).

Definition __seek (n : Z) : M unit :=
  self <- get ;;
  datfile_seek (n * bytes_per_sample self) ;;
  modify (set_currsample n) ;;
  (if infodata.has_epoch (infdata self) then
     modify (set_currmjd_actual
               (infodata.dt (infdata self) * inject_Z n / SECPERDAY))
   else ret tt) ;;
  modify (set_currtime_actual (infodata.dt (infdata self) * inject_Z n)).

Definition __update_desired_time (T : Q) : M unit :=
  self <- get ;;
  modify (set_currtime_desired (currtime_desired self + T)) ;;
  if infodata.has_epoch (infdata self) then
    mjd <- get_currmjd_desired ;;
    modify (set_currmjd_desired (mjd + T / SECPERDAY))
  else ret tt.

Definition read_Nsamples (n : Z) : M (option (list Q)) :=
  data <- __read n ;;
  match data with
  | Some _ =>
      self <- get ;;
      __update_desired_time (inject_Z n * infodata.dt (infdata self)) ;;
      ret data
  | None => ret data
  end.

Definition read_to (n : Z) : M (option (list Q)) :=
  self <- get ;;
  let numtoread :=
    if n =? -1 then infodata.N (infdata self) - currsample self
    else n - currsample self in
  read_Nsamples numtoread.

Definition rewind : M unit :=
  datfile_seek 0 ;;
  modify (set_currsample 0) ;;
  modify (set_currtime_actual 0) ;;
  modify (set_currtime_desired 0) ;;
  self <- get ;;
  match infodata.epoch (infdata self) with
  | Some e =>
      modify (set_currmjd_actual e) ;;
      modify (set_currmjd_desired e)
  | None => ret tt
  end.

Definition seek_to (T : Q) : M Z :=
  rewind ;;
  self <- get ;;
  q <- lift (float_div (currtime_desired self + T) (infodata.dt (infdata self))) ;;
  let endsample := np_round q in
  let sample_num := int_of_float (endsample - inject_Z (currsample self)) in
  __seek sample_num ;;
  modify (set_currtime_desired T) ;;
  (match infodata.epoch (infdata self) with
   | Some e => modify (set_currmjd_desired (e + T / SECPERDAY))
   | None => ret tt
   end) ;;
  ret sample_num.

Definition read_Tseconds (T : Q) : M (option (list Q)) :=
  self <- get ;;
  q <- lift (float_div (currtime_desired self + T) (infodata.dt (infdata self))) ;;
  let endsample := np_round q in
  let num_samples_to_read :=
    int_of_float (endsample - inject_Z (currsample self)) in
  data <- __read num_samples_to_read ;;
  match data with
  | Some _ => __update_desired_time T ;; ret data
  | None => ret data
  end.

Definition read_all : M (option (list Q)) :=
  rewind ;;
  self <- get ;;
  __read (infodata.N (infdata self)).

(** *** Baseline estimation *)

Section Baseline.
(** [np.median], a function of the numerical library. *)
Variable median : list Q -> Q.


End Baseline.

(** *** Pulse iteration *)

(** Modelled from the spec: the [Pulse] class of [formats/pulse.py] (not
    under src/), as the record of what its constructor is given: sequence
    number, start MJD and time, duration, sample block, and the metadata
    copied from the reader. *)
Module pulse.
Record Pulse : Type := mk {
  number : Z;
  mjd : Q;
  time : Q;
  duration : Q;
  profile : list Q;
  origfn : string;
  dt : Q;
  dm : Q;
  telescope : string;
  lofreq : Q;
  chan_width : Q;
  bw : Q
}.
End pulse.

(** The generator object returned by [pulses(period_at_mjd, time_to_skip)]:
    not started, suspended at the [yield] (the frame keeps [pulse_number]),
    or finished. *)
Inductive generator : Type :=
| Created (period_at_mjd : Q -> Q) (time_to_skip : Q)
| Suspended (period_at_mjd : Q -> Q) (pulse_number : Z)
| Finished.

(** Calling the generator function runs none of its body. *)
Definition pulses (period_at_mjd : Q -> Q) (time_to_skip : Q) : generator :=
  Created period_at_mjd time_to_skip.

(** The four lines that fetch the next pulse, and the [yield] of it when
    there is one. *)
Definition pulses_fetch (period_at_mjd : Q -> Q) (pulse_number : Z)
    : M (option pulse.Pulse) :=
  self <- get ;;
  let current_time := currtime_actual self in
  current_mjd <- get_currmjd_actual ;;
  let current_period := period_at_mjd current_mjd in
  current_pulse <- read_Tseconds current_period ;;
  match current_pulse with
  | Some prof =>
      self <- get ;;
      ret (Some (pulse.mk pulse_number current_mjd current_time current_period
                   prof (datfn self)
                   (infodata.dt (infdata self)) (infodata.DM (infdata self))
                   (infodata.telescope (infdata self))
                   (infodata.lofreq (infdata self))
                   (infodata.chan_width (infdata self))
                   (infodata.BW (infdata self))))
  | None => ret None
  end.

(** The body from its start to the first [yield] or to its end. *)
Definition pulses_start (period_at_mjd : Q -> Q) (time_to_skip : Q)
    : M (option pulse.Pulse) :=
  self <- get ;;
  if negb (infodata.has_epoch (infdata self)) then
    raise (NotImplementedError
             "Cannot use 'pulses(...)' if there is no MJD in inf file")
  else
    rewind ;;
    (if Qlt_bool 0 time_to_skip then
       _ <- read_Tseconds time_to_skip ;; ret tt
     else ret tt) ;;
    pulses_fetch period_at_mjd 1.

(** [next(g)]: [Ok (Some p)] is a pulse yielded, [Ok None] the end of the
    iteration; an exception finishes the generator. *)
Definition next (g : generator) (s : Datfile)
    : result (option pulse.Pulse) * Datfile * generator :=
  match g with
  | Created f skip =>
      match pulses_start f skip s with
      | (Ok (Some p), s') => (Ok (Some p), s', Suspended f 1)
      | (r, s') => (r, s', Finished)
      end
  | Suspended f k =>
      match pulses_fetch f (k + 1) s with
      | (Ok (Some p), s') => (Ok (Some p), s', Suspended f (k + 1))
      | (r, s') => (r, s', Finished)
      end
  | Finished => (Ok None, s, Finished)
  end.


(* ------------------------------------------------------------------ *)
(** ** Construction *)

(** What construction reads from outside: [open(fn, 'r')] and the parser of
    the sidecar file, [infodata.infodata(fn)]. *)
Record environment : Type := mkenv {
  open_file : string -> result (list Q);
  load_infodata : string -> result infodata.t
}.

(** [Datfile(datfn, dtype)], with [itemsize] the size of [dtype] in bytes.
    The [else] branch raises a string, which the interpreter refuses with a
    [TypeError]. *)
Definition __init__ (env : environment) (datfn : string) (itemsize : Z)
    : result Datfile :=
  if endswith datfn ".dat" then
    let basefn := drop_last 4 datfn in
    match open_file env datfn with
    | Raise e => Raise e
    | Ok content =>
        let inffn := (basefn ++ ".inf")%string in
        match load_infodata env inffn with
        | Raise e => Raise e
        | Ok inf =>
            match correct_infdata inf with
            | (Raise e, _) => Raise e
            | (Ok _, inf') =>
                match rewind (mkDatfile datfn itemsize basefn
                                (mkfile content 0) inffn inf'
                                0 0 0 None None) with
                | (Ok _, self) => Ok self
                | (Raise e, _) => Raise e
                end
            end
        end
    end
  else Raise (TypeError "exceptions must derive from BaseException").

(* ------------------------------------------------------------------ *)
(** * Properties *)

(** ** Rounding and truncation *)

Lemma Qle_bool_true (x y : Q) : Qle_bool x y = true <-> (x <= y)%Q.
Proof. apply Qle_bool_iff. Qed.

Lemma Qle_bool_false (x y : Q) : Qle_bool x y = false <-> (y < x)%Q.
Proof.
  split; intro H.
  - apply Qnot_le_lt. intro Hle. apply Qle_bool_iff in Hle. congruence.
  - destruct (Qle_bool x y) eqn:E; [|reflexivity].
    apply Qle_bool_iff in E. lra.
Qed.

Lemma Qlt_bool_true (x y : Q) : Qlt_bool x y = true <-> (x < y)%Q.
Proof.
  unfold Qlt_bool. rewrite negb_true_iff. apply Qle_bool_false.
Qed.

Lemma Qlt_bool_false (x y : Q) : Qlt_bool x y = false <-> (y <= x)%Q.
Proof.
  unfold Qlt_bool. rewrite negb_false_iff. apply Qle_bool_true.
Qed.

Lemma int_of_float_inject_Z (z : Z) : int_of_float (inject_Z z) = z.
Proof.
  unfold int_of_float.
  destruct (Qle_bool 0 (inject_Z z)); [apply Qfloor_Z | apply Qceiling_Z].
Qed.

Lemma int_of_float_comp (x y : Q) : (x == y)%Q -> int_of_float x = int_of_float y.
Proof.
  intro H. unfold int_of_float.
  rewrite (Qfloor_comp _ _ H), (Qceiling_comp _ _ H).
  destruct (Qle_bool 0 x) eqn:Ex, (Qle_bool 0 y) eqn:Ey; try reflexivity.
  - apply Qle_bool_true in Ex. apply Qle_bool_false in Ey. lra.
  - apply Qle_bool_false in Ex. apply Qle_bool_true in Ey. lra.
Qed.

(** The sample count of a duration read or of a seek: the difference of two
    whole numbers, truncated, is their difference. *)
Lemma int_of_float_sub (a b : Z) :
  int_of_float (inject_Z a - inject_Z b) = a - b.
Proof.
  rewrite <- (int_of_float_inject_Z (a - b)).
  apply int_of_float_comp.
  unfold Zminus. rewrite inject_Z_plus, inject_Z_opp. ring.
Qed.


Lemma rint_comp (x y : Q) : (x == y)%Q -> rint x = rint y.
Proof.
  intro H. unfold rint. rewrite (Qfloor_comp _ _ H).
  assert (E : (x - inject_Z (Qfloor y) == y - inject_Z (Qfloor y))%Q)
    by (rewrite H; reflexivity).
  rewrite E. reflexivity.
Qed.









(* ------------------------------------------------------------------ *)
(** ** Reader states *)

(** The MJD attributes exist when the metadata has an epoch: what [rewind]
    establishes, and what every method that reads them relies on. *)
Definition mjd_attrs_ok (r : Datfile) : Prop :=
  infodata.has_epoch (infdata r) = true ->
  currmjd_actual r <> None /\ currmjd_desired r <> None.

(** The file position is that of the current sample, and the file holds the
    samples that the metadata declares. *)
Definition file_in_step (r : Datfile) : Prop :=
  0 < bytes_per_sample r /\
  0 <= currsample r /\
  offset (datfile r) = currsample r * bytes_per_sample r /\
  infodata.N (infdata r) <= Z.of_nat (List.length (samples (datfile r))).

(** An MJD attribute moved by [d] days when the metadata has an epoch. *)
Definition mjd_plus (has_epoch : bool) (d : Q) (m : option Q) : option Q :=
  if has_epoch then option_map (fun v => (v + d)%Q) m else m.

(** The block that a read of [n] samples gets from the file. *)
Definition block_of (n : Z) (r : Datfile) : list Q :=
  fst (np_fromfile (bytes_per_sample r) n (datfile r)).

(** The state after a read of [n] samples that found them. *)
Definition state_after_read (n : Z) (r : Datfile) : Datfile :=
  mkDatfile (datfn r) (bytes_per_sample r) (basefn r)
    (snd (np_fromfile (bytes_per_sample r) n (datfile r)))
    (inffn r) (infdata r)
    (currsample r + n)
    (currtime_actual r + infodata.dt (infdata r) * inject_Z n)
    (currtime_desired r)
    (mjd_plus (infodata.has_epoch (infdata r))
       (infodata.dt (infdata r) * inject_Z n / SECPERDAY) (currmjd_actual r))
    (currmjd_desired r).

(** The state after the desired clock moved by [T] seconds. *)
Definition state_after_desired (T : Q) (r : Datfile) : Datfile :=
  mkDatfile (datfn r) (bytes_per_sample r) (basefn r) (datfile r)
    (inffn r) (infdata r) (currsample r) (currtime_actual r)
    (currtime_desired r + T)
    (currmjd_actual r)
    (mjd_plus (infodata.has_epoch (infdata r)) (T / SECPERDAY)
       (currmjd_desired r)).

Lemma mjd_attrs_ok_after_read (n : Z) (r : Datfile) :
  mjd_attrs_ok r -> mjd_attrs_ok (state_after_read n r).
Proof.
  unfold mjd_attrs_ok, state_after_read, mjd_plus. simpl.
  intros H E. rewrite E. destruct (H E) as [Ha Hd]. split; [|exact Hd].
  destruct (currmjd_actual r); [discriminate | congruence].
Qed.

Lemma mjd_attrs_ok_after_desired (T : Q) (r : Datfile) :
  mjd_attrs_ok r -> mjd_attrs_ok (state_after_desired T r).
Proof.
  unfold mjd_attrs_ok, state_after_desired, mjd_plus. simpl.
  intros H E. rewrite E. destruct (H E) as [Ha Hd]. split; [exact Ha|].
  destruct (currmjd_desired r); [discriminate | congruence].
Qed.

(** ** The read primitive *)

Lemma __read_past_end (n : Z) (r : Datfile) :
  currsample r + n > infodata.N (infdata r) ->
  __read n r = (Ok None, r).
Proof.
  intro H. unfold __read, bind, get. simpl.
  destruct (currsample r + n >? infodata.N (infdata r)) eqn:E.
  - reflexivity.
  - rewrite Z.gtb_ltb in E. apply Z.ltb_ge in E. lia.
Qed.

Lemma __read_within (n : Z) (r : Datfile) :
  currsample r + n <= infodata.N (infdata r) ->
  mjd_attrs_ok r ->
  __read n r = (Ok (Some (block_of n r)), state_after_read n r).
Proof.
  intros H Hok. unfold __read, bind, get. simpl.
  destruct (currsample r + n >? infodata.N (infdata r)) eqn:E.
  - rewrite Z.gtb_ltb in E. apply Z.ltb_lt in E. lia.
  - unfold mjd_attrs_ok in Hok. unfold state_after_read, block_of, mjd_plus.
    destruct r as [fn bps bfn f ifn inf cs ta td ma md]. simpl in *.
    unfold modify, get_currmjd_actual, datfile_fromfile, ret. simpl.
    destruct (infodata.has_epoch inf) eqn:Ee; simpl.
    + destruct (Hok eq_refl) as [Ha _].
      destruct ma as [m|]; [|congruence]. simpl.
      destruct (np_fromfile bps n f). reflexivity.
    + destruct (np_fromfile bps n f). reflexivity.
Qed.

Lemma __update_desired_time_within (T : Q) (r : Datfile) :
  mjd_attrs_ok r ->
  __update_desired_time T r = (Ok tt, state_after_desired T r).
Proof.
  intro Hok. unfold mjd_attrs_ok in Hok.
  unfold __update_desired_time, state_after_desired, mjd_plus, bind, get,
    modify, get_currmjd_desired, ret.
  destruct r as [fn bps bfn f ifn inf cs ta td ma md]. simpl in *.
  destruct (infodata.has_epoch inf) eqn:Ee; simpl.
  - destruct (Hok eq_refl) as [_ Hd].
    destruct md as [m|]; [|congruence]. reflexivity.
  - reflexivity.
Qed.

(** The block of a read of [n >= 0] samples, when the file is in step with
    the reader: the [n] samples from the current one on. *)
Lemma block_of_in_step (n : Z) (r : Datfile) :
  0 <= n -> file_in_step r ->
  block_of n r =
  firstn (Z.to_nat n) (skipn (Z.to_nat (currsample r)) (samples (datfile r))).
Proof.
  intros Hn (Hb & Hc & Ho & _). unfold block_of, np_fromfile. simpl.
  rewrite Ho, Z.div_mul by lia.
  destruct (n <? 0) eqn:E; [apply Z.ltb_lt in E; lia | reflexivity].
Qed.

Lemma block_of_length (n : Z) (r : Datfile) :
  0 <= n -> file_in_step r ->
  currsample r + n <= infodata.N (infdata r) ->
  Z.of_nat (List.length (block_of n r)) = n.
Proof.
  intros Hn Hf Hle. rewrite (block_of_in_step n r Hn Hf).
  destruct Hf as (Hb & Hc & Ho & Hlen).
  rewrite length_firstn, length_skipn. lia.
Qed.

Lemma np_fromfile_samples (itemsize count : Z) (f : file) :
  samples (snd (np_fromfile itemsize count f)) = samples f.
Proof. reflexivity. Qed.

Lemma np_fromfile_offset (itemsize count : Z) (f : file) :
  offset (snd (np_fromfile itemsize count f)) =
  offset f + itemsize * Z.of_nat (List.length (fst (np_fromfile itemsize count f))).
Proof. reflexivity. Qed.

Lemma file_in_step_after_read (n : Z) (r : Datfile) :
  0 <= n -> file_in_step r ->
  currsample r + n <= infodata.N (infdata r) ->
  file_in_step (state_after_read n r).
Proof.
  intros Hn Hf Hle.
  pose proof (block_of_length n r Hn Hf Hle) as Hlen.
  destruct Hf as (Hb & Hc & Ho & Hl).
  unfold file_in_step, state_after_read.
  cbn [bytes_per_sample currsample datfile infdata].
  rewrite np_fromfile_samples, np_fromfile_offset.
  fold (block_of n r). rewrite Hlen, Ho.
  repeat split; try lia.
Qed.


(* ------------------------------------------------------------------ *)
(** ** ReadSamples *)

Lemma read_Nsamples_past_end (n : Z) (r : Datfile) :
  currsample r + n > infodata.N (infdata r) ->
  read_Nsamples n r = (Ok None, r).
Proof.
  intro H. unfold read_Nsamples, bind.
  rewrite (__read_past_end n r H). reflexivity.
Qed.

Lemma read_Nsamples_within (n : Z) (r : Datfile) :
  currsample r + n <= infodata.N (infdata r) ->
  mjd_attrs_ok r ->
  read_Nsamples n r =
  (Ok (Some (block_of n r)),
   state_after_desired (inject_Z n * infodata.dt (infdata r))
     (state_after_read n r)).
Proof.
  intros H Hok. unfold read_Nsamples, bind.
  rewrite (__read_within n r H Hok). unfold get.
  rewrite (__update_desired_time_within _ _ (mjd_attrs_ok_after_read n r Hok)).
  reflexivity.
Qed.

(** C1, amended.  [read_Nsamples(n)]: when fewer than [n] samples remain
    ([currsample + n > N]) the result is [None] and the reader is left as it
    was, in every attribute.  Otherwise (the MJD attributes being there when
    the metadata has an epoch) the result is a block, the sample index has
    advanced by [n], the actual and the desired time by [n] sample intervals
    and, with an epoch, the actual and the desired MJD by that many seconds
    in days; the block has exactly [n] samples when the count is [n >= 0]
    and the file is in step with the reader: its position is that of the
    current sample and it holds the [N] samples of the metadata. *)
Theorem read_Nsamples_sentinel_or_block (r : Datfile) (n : Z) :
  (currsample r + n > infodata.N (infdata r) ->
   read_Nsamples n r = (Ok None, r)) /\
  (currsample r + n <= infodata.N (infdata r) ->
   mjd_attrs_ok r ->
   exists blk r',
     read_Nsamples n r = (Ok (Some blk), r') /\
     currsample r' = currsample r + n /\
     currtime_actual r' =
       (currtime_actual r + infodata.dt (infdata r) * inject_Z n)%Q /\
     currtime_desired r' =
       (currtime_desired r + inject_Z n * infodata.dt (infdata r))%Q /\
     currmjd_actual r' =
       mjd_plus (infodata.has_epoch (infdata r))
         (infodata.dt (infdata r) * inject_Z n / SECPERDAY)
         (currmjd_actual r) /\
     currmjd_desired r' =
       mjd_plus (infodata.has_epoch (infdata r))
         (inject_Z n * infodata.dt (infdata r) / SECPERDAY)
         (currmjd_desired r) /\
     infdata r' = infdata r /\
     (0 <= n -> file_in_step r -> Z.of_nat (List.length blk) = n)).
Proof.
  split.
  - apply read_Nsamples_past_end.
  - intros Hle Hok.
    exists (block_of n r),
      (state_after_desired (inject_Z n * infodata.dt (infdata r))
         (state_after_read n r)).
    split; [apply read_Nsamples_within; assumption|].
    simpl. repeat split.
    intros Hn Hf. apply block_of_length; assumption.
Qed.

(** A reader of ten samples, one second apart, with an epoch: the object
    that construction returns for [obs.dat] in [scenario_env]. *)
Definition scenario_inf : infodata.t :=
  infodata.mk "Parkes" "AFB" 10 1 (Some 50000%Q) 0 1400 288 3.

Definition scenario_env : environment :=
  mkenv (fun _ => Ok (map inject_Z [1; 2; 3; 4; 5; 6; 7; 8; 9; 10]))
        (fun _ => Ok scenario_inf).

Definition scenario_reader : Datfile :=
  mkDatfile "obs.dat" 4 "obs"
    (mkfile (map inject_Z [1; 2; 3; 4; 5; 6; 7; 8; 9; 10]) 0)
    "obs.inf" scenario_inf 0 0 0 (Some 50000%Q) (Some 50000%Q).

Example scenario_reader_constructed :
  __init__ scenario_env "obs.dat" 4 = Ok scenario_reader.
Proof. reflexivity. Qed.

Lemma scenario_reader_attrs : mjd_attrs_ok scenario_reader.
Proof. intros _. split; discriminate. Defined.

Lemma scenario_reader_in_step : file_in_step scenario_reader.
Proof. unfold file_in_step. simpl. lia. Defined.

(** The ten-sample reader on a file that was cut after four samples. *)
Definition cut_file_reader : Datfile :=
  mkDatfile "obs.dat" 4 "obs"
    (mkfile (map inject_Z [1; 2; 3; 4]) 0)
    "obs.inf" scenario_inf 0 0 0 (Some 50000%Q) (Some 50000%Q).

(** C1 as stated fails.  A negative count within the file is accepted:
    [read_Nsamples(-5)] at the start of the ten-sample reader returns the ten
    samples of the file and leaves the index at -5.  A file shorter than the
    metadata says gives a short block: six samples asked for, four
    returned. *)
Lemma read_Nsamples_block_not_n :
  (exists blk r',
     read_Nsamples (-5) scenario_reader = (Ok (Some blk), r') /\
     Z.of_nat (List.length blk) = 10 /\
     Z.of_nat (List.length blk) <> -5 /\
     currsample r' = -5) /\
  (exists blk r',
     read_Nsamples 6 cut_file_reader = (Ok (Some blk), r') /\
     Z.of_nat (List.length blk) = 4 /\
     Z.of_nat (List.length blk) <> 6 /\
     currsample r' = 6).
Proof.
  split.
  - exists (map inject_Z [1; 2; 3; 4; 5; 6; 7; 8; 9; 10]),
      (snd (read_Nsamples (-5) scenario_reader)).
    split; [vm_compute; reflexivity|].
    split; [reflexivity|].
    split; [discriminate | vm_compute; reflexivity].
  - exists (map inject_Z [1; 2; 3; 4]),
      (snd (read_Nsamples 6 cut_file_reader)).
    split; [vm_compute; reflexivity|].
    split; [reflexivity|].
    split; [discriminate | vm_compute; reflexivity].
Qed.

(** C1 at the ten-sample reader: eleven samples are refused and the reader
    stays as it was; three samples are returned and the index is 3. *)
Lemma read_Nsamples_sentinel_or_block_witness :
  read_Nsamples 11 scenario_reader = (Ok None, scenario_reader) /\
  exists blk r',
    read_Nsamples 3 scenario_reader = (Ok (Some blk), r') /\
    currsample r' = 3 /\ Z.of_nat (List.length blk) = 3.
Proof.
  split.
  - apply (proj1 (read_Nsamples_sentinel_or_block scenario_reader 11)).
    reflexivity.
  - destruct (proj2 (read_Nsamples_sentinel_or_block scenario_reader 3))
      as (blk & r' & Hr & Hc & _ & _ & _ & _ & _ & Hl).
    + simpl. lia.
    + exact scenario_reader_attrs.
    + exists blk, r'. split; [exact Hr|]. split; [exact Hc|].
      apply Hl; [lia | exact scenario_reader_in_step].
Defined.

(** The scenario of the specification: 10000 samples, 1 ms apart, no
    epoch. *)
Definition millisecond_reader : Datfile :=
  mkDatfile "ts.dat" 4 "ts" (mkfile (repeat 0%Q (Z.to_nat 10000)) 0) "ts.inf"
    (infodata.mk "Parkes" "AFB" 10000 (1 # 1000) None 0 1400 288 3)
    0 0 0 None None.

(** [read_Nsamples(500)] returns 500 values and goes to sample 500; then
    [read_Nsamples(9600)] returns [None], 9500 samples being left, and the
    reader stays at sample 500. *)
Example millisecond_reader_scenario :
  let '(first, r1) := read_Nsamples 500 millisecond_reader in
  let '(second, r2) := read_Nsamples 9600 r1 in
  option_map (@List.length Q) (match first with Ok b => b | Raise _ => None end)
    = Some 500%nat /\
  currsample r1 = 500 /\
  second = Ok None /\
  r2 = r1.
Proof. vm_compute. repeat split. Qed.

(* ------------------------------------------------------------------ *)
(** ** ReadDuration *)


Lemma float_div_nonzero (x y : Q) :
  ~ (y == 0)%Q -> float_div x y = Ok (x / y)%Q.
Proof.
  intro H. unfold float_div.
  destruct (Qeq_bool y 0) eqn:E; [|reflexivity].
  apply Qeq_bool_iff in E. contradiction.
Qed.






(** Equality of optional clock values, up to the value of the fraction. *)
Definition opt_Qeq (a b : option Q) : Prop :=
  match a, b with
  | Some x, Some y => (x == y)%Q
  | None, None => True
  | _, _ => False
  end.




(* ------------------------------------------------------------------ *)
(** ** Reading in two steps *)

Lemma firstn_skipn_split {A : Type} (a b : nat) (l : list A) :
  firstn a l ++ firstn b (skipn (List.length (firstn a l)) l) = firstn (a + b) l.
Proof.
  revert l. induction a as [|a IH]; intro l.
  - reflexivity.
  - destruct l as [|x l].
    + simpl. rewrite firstn_nil. reflexivity.
    + simpl. rewrite IH. reflexivity.
Qed.

(** Two successive [np.fromfile] calls read what one call for the sum of the
    counts reads. *)
Lemma np_fromfile_split (itemsize a b : Z) (f : file) :
  0 < itemsize -> 0 <= offset f -> 0 <= a -> 0 <= b ->
  fst (np_fromfile itemsize a f) ++
  fst (np_fromfile itemsize b (snd (np_fromfile itemsize a f))) =
  fst (np_fromfile itemsize (a + b) f).
Proof.
  intros Hi Ho Ha Hb.
  rewrite (surjective_pairing (np_fromfile itemsize b _)).
  unfold np_fromfile at 2. cbn [fst].
  rewrite np_fromfile_samples, np_fromfile_offset.
  unfold np_fromfile. cbn [fst].
  destruct (a <? 0) eqn:Ea; [apply Z.ltb_lt in Ea; lia|].
  destruct (b <? 0) eqn:Eb; [apply Z.ltb_lt in Eb; lia|].
  destruct (a + b <? 0) eqn:Eab; [apply Z.ltb_lt in Eab; lia|].
  set (p := Z.to_nat (offset f / itemsize)).
  set (L := skipn p (samples f)).
  set (k := List.length (firstn (Z.to_nat a) L)).
  assert (Hq : 0 <= offset f / itemsize) by (apply Z.div_pos; lia).
  replace (Z.to_nat ((offset f + itemsize * Z.of_nat k) / itemsize))
    with (k + p)%nat.
  - rewrite <- skipn_skipn. fold L. unfold k.
    rewrite firstn_skipn_split. f_equal. lia.
  - rewrite Z.mul_comm, Z.div_add by lia. unfold p. lia.
Qed.

(** C5.  With [remaining = N - currsample] samples left and
    [0 <= n <= remaining], [read_Nsamples(n)] followed by
    [read_Nsamples(remaining - n)] returns two blocks whose concatenation is
    the block that [read_Nsamples(remaining)] returns from the original
    position. *)
Theorem read_Nsamples_split (r : Datfile) (n : Z)
    (Hok : mjd_attrs_ok r)
    (Hsize : 0 < bytes_per_sample r) (Hpos : 0 <= offset (datfile r))
    (Hn : 0 <= n <= infodata.N (infdata r) - currsample r) :
  let remaining := infodata.N (infdata r) - currsample r in
  exists b1 r1 b2 r2 b r',
    read_Nsamples n r = (Ok (Some b1), r1) /\
    read_Nsamples (remaining - n) r1 = (Ok (Some b2), r2) /\
    read_Nsamples remaining r = (Ok (Some b), r') /\
    b1 ++ b2 = b.
Proof.
  intro remaining.
  set (r1 := state_after_desired (inject_Z n * infodata.dt (infdata r))
               (state_after_read n r)).
  assert (Hok1 : mjd_attrs_ok r1).
  { apply mjd_attrs_ok_after_desired, mjd_attrs_ok_after_read, Hok. }
  exists (block_of n r), r1, (block_of (remaining - n) r1),
    (state_after_desired (inject_Z (remaining - n) * infodata.dt (infdata r1))
       (state_after_read (remaining - n) r1)),
    (block_of remaining r),
    (state_after_desired (inject_Z remaining * infodata.dt (infdata r))
       (state_after_read remaining r)).
  split; [|split; [|split]].
  - apply read_Nsamples_within; [lia | exact Hok].
  - apply read_Nsamples_within; [|exact Hok1].
    unfold r1, remaining. simpl. lia.
  - apply read_Nsamples_within; [unfold remaining; lia | exact Hok].
  - unfold block_of, r1. cbn [bytes_per_sample datfile state_after_desired
                               state_after_read].
    replace remaining with (n + (remaining - n)) at 2 by lia.
    apply np_fromfile_split; unfold remaining; lia.
Qed.

(** C5 at the ten-sample reader, split after four samples. *)
Lemma read_Nsamples_split_witness :
  exists b1 r1 b2 r2 b r',
    read_Nsamples 4 scenario_reader = (Ok (Some b1), r1) /\
    read_Nsamples (10 - 0 - 4) r1 = (Ok (Some b2), r2) /\
    read_Nsamples (10 - 0) scenario_reader = (Ok (Some b), r') /\
    b1 ++ b2 = b.
Proof.
  apply (read_Nsamples_split scenario_reader 4).
  - exact scenario_reader_attrs.
  - simpl. lia.
  - simpl. lia.
  - simpl. lia.
Defined.

(* ------------------------------------------------------------------ *)
(** ** Which exceptions a method can raise *)

(** The result is not a [NotImplementedError]. *)
Definition not_NotImplemented {A : Type} (x : result A) : Prop :=
  forall msg, x <> Raise (NotImplementedError msg).

(** The computation never raises [NotImplementedError]. *)
Definition never_NotImplemented {A : Type} (m : M A) : Prop :=
  forall s, not_NotImplemented (fst (m s)).

Lemma never_NI_ret {A : Type} (a : A) : never_NotImplemented (ret a).
Proof. intros s msg. discriminate. Qed.

Lemma never_NI_get : never_NotImplemented get.
Proof. intros s msg. discriminate. Qed.

Lemma never_NI_modify (f : Datfile -> Datfile) : never_NotImplemented (modify f).
Proof. intros s msg. discriminate. Qed.

Lemma never_NI_bind {A B : Type} (m : M A) (k : A -> M B) :
  never_NotImplemented m -> (forall a, never_NotImplemented (k a)) ->
  never_NotImplemented (bind m k).
Proof.
  intros Hm Hk s msg. unfold bind.
  specialize (Hm s msg). destruct (m s) as [[a | e] s']; simpl in *.
  - apply Hk.
  - intro E. apply Hm. inversion E. reflexivity.
Qed.

Lemma never_NI_float_div (x y : Q) : never_NotImplemented (lift (float_div x y)).
Proof.
  intros s msg. unfold lift, float_div. simpl.
  destruct (Qeq_bool y 0); discriminate.
Qed.

Lemma never_NI_get_currmjd_actual : never_NotImplemented get_currmjd_actual.
Proof.
  intros s msg. unfold get_currmjd_actual.
  destruct (currmjd_actual s); discriminate.
Qed.

Lemma never_NI_get_currmjd_desired : never_NotImplemented get_currmjd_desired.
Proof.
  intros s msg. unfold get_currmjd_desired.
  destruct (currmjd_desired s); discriminate.
Qed.

Lemma never_NI_datfile_seek (off : Z) : never_NotImplemented (datfile_seek off).
Proof.
  intros s msg. unfold datfile_seek, file_seek.
  destruct (off <? 0); [discriminate|].
  destruct (max_position <? off); discriminate.
Qed.

Lemma never_NI_datfile_fromfile (n : Z) :
  never_NotImplemented (datfile_fromfile n).
Proof.
  intros s msg. unfold datfile_fromfile.
  destruct (np_fromfile _ _ _). discriminate.
Qed.

(** Goes through a method body, statement by statement; the calls of other
    methods are left as goals. *)
Ltac never_NI :=
  repeat
    match goal with
    | |- never_NotImplemented (bind _ _) => apply never_NI_bind; [|intro]
    | |- never_NotImplemented (ret _) => apply never_NI_ret
    | |- never_NotImplemented get => apply never_NI_get
    | |- never_NotImplemented (modify _) => apply never_NI_modify
    | |- never_NotImplemented (lift (float_div _ _)) => apply never_NI_float_div
    | |- never_NotImplemented get_currmjd_actual =>
        apply never_NI_get_currmjd_actual
    | |- never_NotImplemented get_currmjd_desired =>
        apply never_NI_get_currmjd_desired
    | |- never_NotImplemented (datfile_seek _) => apply never_NI_datfile_seek
    | |- never_NotImplemented (datfile_fromfile _) =>
        apply never_NI_datfile_fromfile
    | |- never_NotImplemented (if ?b then _ else _) => destruct b
    | |- never_NotImplemented (match ?x with Some _ => _ | None => _ end) =>
        destruct x
    | |- never_NotImplemented (let _ := _ in _) => cbv zeta
    end.

Lemma never_NI___read (n : Z) : never_NotImplemented (__read n).
Proof. unfold __read. never_NI. Qed.

Lemma never_NI___update_desired_time (T : Q) :
  never_NotImplemented (__update_desired_time T).
Proof. unfold __update_desired_time. never_NI. Qed.

Lemma never_NI_rewind : never_NotImplemented rewind.
Proof. unfold rewind. never_NI. Qed.

Lemma never_NI_read_Tseconds (T : Q) : never_NotImplemented (read_Tseconds T).
Proof.
  unfold read_Tseconds. never_NI;
    first [apply never_NI___read | apply never_NI___update_desired_time].
Qed.

Lemma never_NI_pulses_fetch (f : Q -> Q) (k : Z) :
  never_NotImplemented (pulses_fetch f k).
Proof. unfold pulses_fetch. never_NI; apply never_NI_read_Tseconds. Qed.

(* ------------------------------------------------------------------ *)
(** ** Pulse iteration without an epoch *)

Lemma has_epoch_false (i : infodata.t) :
  infodata.epoch i = None -> infodata.has_epoch i = false.
Proof. unfold infodata.has_epoch. intros ->. reflexivity. Qed.

Lemma has_epoch_true (i : infodata.t) :
  infodata.epoch i <> None -> infodata.has_epoch i = true.
Proof.
  unfold infodata.has_epoch. destruct (infodata.epoch i); congruence.
Qed.

(** C8.  On a reader whose metadata has no epoch, the first resumption of
    the generator returned by [pulses] raises [NotImplementedError] with the
    reader as it was: no rewind, no skip and no read took place, and the
    generator is finished, so no pulse is ever yielded.  On a reader whose
    metadata has an epoch no resumption of any generator raises that
    error. *)
Theorem pulses_requires_epoch (r : Datfile) (period_at_mjd : Q -> Q)
    (time_to_skip : Q) :
  (infodata.epoch (infdata r) = None ->
   next (pulses period_at_mjd time_to_skip) r =
   (Raise (NotImplementedError
             "Cannot use 'pulses(...)' if there is no MJD in inf file"),
    r, Finished)) /\
  (infodata.epoch (infdata r) <> None ->
   forall (g : generator) (msg : string),
     fst (fst (next g r)) <> Raise (NotImplementedError msg)).
Proof.
  split.
  - intro He. unfold pulses, next, pulses_start, bind, get.
    rewrite (has_epoch_false _ He). reflexivity.
  - intros He g msg. destruct g as [f skip | f k |].
    + assert (H : not_NotImplemented (fst (pulses_start f skip r))).
      { unfold pulses_start, bind at 1, get.
        rewrite (has_epoch_true _ He). cbn [negb].
        apply never_NI_bind; [apply never_NI_rewind|]. intros _.
        apply never_NI_bind; [|intros _; apply never_NI_pulses_fetch].
        destruct (Qlt_bool 0 skip); never_NI. apply never_NI_read_Tseconds. }
      unfold next. specialize (H msg).
      destruct (pulses_start f skip r) as [[[p|] | e] s']; simpl in *;
        try discriminate; exact H.
    + pose proof (never_NI_pulses_fetch f (k + 1) r msg) as H.
      unfold next.
      destruct (pulses_fetch f (k + 1) r) as [[[p|] | e] s']; simpl in *;
        try discriminate; exact H.
    + simpl. discriminate.
Qed.

(* ------------------------------------------------------------------ *)
(** ** Reset and SeekTo *)

(** The state that [rewind] leaves. *)
Definition state_after_rewind (r : Datfile) : Datfile :=
  mkDatfile (datfn r) (bytes_per_sample r) (basefn r)
    (mkfile (samples (datfile r)) 0) (inffn r) (infdata r)
    0 0 0
    (match infodata.epoch (infdata r) with
     | Some e => Some e
     | None => currmjd_actual r
     end)
    (match infodata.epoch (infdata r) with
     | Some e => Some e
     | None => currmjd_desired r
     end).

Lemma rewind_eq (r : Datfile) : rewind r = (Ok tt, state_after_rewind r).
Proof.
  unfold rewind, state_after_rewind, bind, datfile_seek, modify, get, ret.
  simpl. destruct (infodata.epoch (infdata r)); reflexivity.
Qed.

Lemma mjd_attrs_ok_after_rewind (r : Datfile) :
  mjd_attrs_ok (state_after_rewind r).
Proof.
  unfold mjd_attrs_ok, state_after_rewind, infodata.has_epoch. simpl.
  destruct (infodata.epoch (infdata r)); [split|]; discriminate.
Qed.

Lemma file_in_step_after_rewind (r : Datfile) :
  0 < bytes_per_sample r ->
  infodata.N (infdata r) <= Z.of_nat (List.length (samples (datfile r))) ->
  file_in_step (state_after_rewind r).
Proof.
  intros Hb Hl. unfold file_in_step, state_after_rewind. simpl.
  repeat split; try lia.
Qed.

(** The sample that [seek_to(T)] goes to. *)
Definition seek_sample (T : Q) (r : Datfile) : Z :=
  rint (T / infodata.dt (infdata r)).



(** C3, at the ten-sample reader (epoch 50000, one second per sample):
    [seek_to(3)] returns 3, goes to sample 3 without a read, sets the desired
    time to 3, the desired MJD to [50000 + 3/86400] and the actual time to 3,
    but it sets the actual MJD to [3/86400]: the epoch is not added. *)
Theorem seek_to_actual_mjd_lacks_epoch :
  exists r',
    seek_to 3 scenario_reader = (Ok 3, r') /\
    currsample r' = 3 /\
    offset (datfile r') = 12 /\
    currtime_desired r' = 3%Q /\
    opt_Qeq (currmjd_desired r') (Some (50000 + 3 / 86400)%Q) /\
    (currtime_actual r' == 3)%Q /\
    currmjd_actual r' = Some (3 # 86400) /\
    ~ opt_Qeq (currmjd_actual r') (Some (50000 + 3 / 86400)%Q).
Proof.
  exists (snd (seek_to 3 scenario_reader)).
  split; [vm_compute; reflexivity|].
  repeat split; try (vm_compute; reflexivity).
  vm_compute. intro H. discriminate H.
Qed.

(* ------------------------------------------------------------------ *)
(** ** Construction *)

Lemma __init___without_dat (env : environment) (datfn : string) (itemsize : Z) :
  endswith datfn ".dat" = false ->
  __init__ env datfn itemsize =
  Raise (TypeError "exceptions must derive from BaseException").
Proof. intro H. unfold __init__. rewrite H. reflexivity. Qed.

(** C7, at the path [obs.txt]: construction fails, but with the
    [TypeError] that the interpreter raises for a [raise] of a string, in
    every environment; no exception of the reader's own carries the
    message about the extension. *)
Theorem init_obs_txt_raises_TypeError (env : environment) (itemsize : Z) :
  endswith "obs.txt" ".dat" = false /\
  __init__ env "obs.txt" itemsize =
  Raise (TypeError "exceptions must derive from BaseException").
Proof. split; reflexivity. Qed.

(* ------------------------------------------------------------------ *)
(** ** The load-time correction *)

(** Metadata of a GBT Spigot observation in the 800 MHz, 1024-lag mode,
    with sample interval [dt]. *)
Definition spigot_inf (dt : Q) : infodata.t :=
  infodata.mk "GBT" "spigot" 10000 dt (Some 50000%Q) 0 1400 800 (800 / 1024).

(** C9 as stated fails: with a sample interval of 1 ms, which is not a
    multiple of 81.92 us, the record is left as it was loaded; [lofreq] is
    not decremented and [epoch] is not incremented. *)
Lemma correct_infdata_skips_unaligned_dt :
  correct_infdata (spigot_inf (1 # 1000)) = (Ok tt, spigot_inf (1 # 1000)) /\
  ~ (infodata.lofreq (snd (correct_infdata (spigot_inf (1 # 1000)))) ==
     1400 - (1 # 2) * (800 / 1024))%Q /\
  ~ opt_Qeq (infodata.epoch (snd (correct_infdata (spigot_inf (1 # 1000)))))
            (Some (50000 + (39365 # 1000000) / 86400)%Q).
Proof.
  split; [vm_compute; reflexivity|].
  split; vm_compute; intro H; discriminate H.
Qed.

(** The test is the one on binary64 values.  The binary64 of 0.00024576,
    on paper three times 81.92 us, has a remainder just below [8.192e-05]
    and the record is left as it was loaded; the binary64 of 0.00016384,
    twice 81.92 us, has the remainder 0 and the record is corrected. *)
Example correct_infdata_on_binary64_intervals :
  correct_infdata (spigot_inf (4533471823554859 # 18446744073709551616))
    = (Ok tt, spigot_inf (4533471823554859 # 18446744073709551616)) /\
  (infodata.lofreq
     (snd (correct_infdata
             (spigot_inf (3022314549036573 # 18446744073709551616))))
   == 1400 - (1 # 2) * (800 / 1024))%Q.
Proof. split; vm_compute; reflexivity. Qed.

(** C9, amended.  For metadata with telescope ["GBT"], instrument
    ["spigot"], channel width [800/1024], epoch 50000 and a sample interval
    whose remainder [np.fmod(dt, 8.192e-05)], taken on the binary64 values,
    is below [1e-12], [correct_infdata] decrements [lofreq] by half the
    channel width, increments [epoch] by [0.039365/86400], and leaves every
    other field as it was. *)
Theorem correct_infdata_spigot_800_1024 (inf : infodata.t) (e : Q)
    (Htel : infodata.telescope inf = "GBT"%string)
    (Hins : infodata.instrument inf = "spigot"%string)
    (Hcw : (infodata.chan_width inf == 800 / 1024)%Q)
    (Hep : infodata.epoch inf = Some e) (He : (e == 50000)%Q)
    (Hdt : (np_fmod (infodata.dt inf) lit_8_192e_05 < lit_1e_12)%Q) :
  exists inf',
    correct_infdata inf = (Ok tt, inf') /\
    infodata.lofreq inf' =
      (infodata.lofreq inf - (1 # 2) * infodata.chan_width inf)%Q /\
    infodata.epoch inf' = Some (e + (39365 # 1000000) / 86400)%Q /\
    infodata.telescope inf' = infodata.telescope inf /\
    infodata.instrument inf' = infodata.instrument inf /\
    infodata.N inf' = infodata.N inf /\
    infodata.dt inf' = infodata.dt inf /\
    infodata.DM inf' = infodata.DM inf /\
    infodata.BW inf' = infodata.BW inf /\
    infodata.chan_width inf' = infodata.chan_width inf.
Proof.
  unfold correct_infdata. rewrite Htel, Hins.
  apply Qlt_bool_true in Hdt. rewrite Hdt.
  apply Qeq_bool_iff in Hcw. rewrite Hcw.
  cbn -[Qlt_bool Qmult Qminus Qplus Qdiv].
  unfold bump_epoch_if_positive.
  cbn -[Qlt_bool Qmult Qminus Qplus Qdiv]. rewrite Hep.
  assert (Hpos : Qlt_bool 0 e = true).
  { apply Qlt_bool_true. rewrite He. reflexivity. }
  rewrite Hpos. eexists. split; [reflexivity|].
  cbn -[Qmult Qminus Qplus Qdiv]. repeat split; assumption.
Qed.

(** C9 at a Spigot record whose sample interval is the binary64 of
    [8.192e-05]. *)
Lemma correct_infdata_spigot_800_1024_witness :
  exists inf',
    correct_infdata (spigot_inf lit_8_192e_05) = (Ok tt, inf') /\
    infodata.lofreq inf' = (1400 - (1 # 2) * (800 / 1024))%Q /\
    infodata.epoch inf' = Some (50000 + (39365 # 1000000) / 86400)%Q.
Proof.
  destruct (correct_infdata_spigot_800_1024
              (spigot_inf lit_8_192e_05) 50000)
    as (inf' & Hc & Hl & He & _); try reflexivity.
  exists inf'. repeat split; assumption.
Defined.

(* ------------------------------------------------------------------ *)
(** ** The bounds of the sample index *)



(** The method keeps the property [P] of the reader, whatever it returns or
    raises. *)
Definition preserves {A : Type} (P : Datfile -> Prop) (m : M A) : Prop :=
  forall s, P s -> P (snd (m s)).



Lemma preserves_lift {A : Type} (P : Datfile -> Prop) (x : result A) :
  preserves P (lift x).
Proof. intros s H. exact H. Qed.
















(** A seek to a negative offset is refused: the reader stays rewound. *)
Lemma seek_to_refused (T : Q) (r : Datfile) :
  ~ (infodata.dt (infdata r) == 0)%Q ->
  seek_sample T r * bytes_per_sample r < 0 ->
  seek_to T r =
  (Raise (ValueError "negative seek position"), state_after_rewind r).
Proof.
  intros Hdt Hl. unfold seek_to.
  unfold bind at 1. rewrite rewind_eq.
  unfold bind at 1, get. unfold bind at 1, lift.
  cbn [infdata state_after_rewind currtime_desired currsample].
  rewrite (float_div_nonzero _ _ Hdt).
  unfold np_round. rewrite int_of_float_sub, Z.sub_0_r.
  assert (E : rint ((0 + T) / infodata.dt (infdata r)) = seek_sample T r).
  { unfold seek_sample. apply rint_comp. field. exact Hdt. }
  rewrite E. clear E.
  unfold __seek, bind, get, datfile_seek, file_seek.
  cbn [bytes_per_sample state_after_rewind datfile].
  apply Z.ltb_lt in Hl. rewrite Hl. reflexivity.
Qed.











(* ------------------------------------------------------------------ *)
(** ** The duration reads come to an end *)










(* ------------------------------------------------------------------ *)
(** ** Pulse iteration with a constant period *)

(** The consecutive integers [start, start + 1, ...], [len] of them. *)
Fixpoint z_seq (start : Z) (len : nat) : list Z :=
  match len with
  | O => []
  | S len' => start :: z_seq (start + 1) len'
  end.

Lemma z_seq_length (start : Z) (len : nat) :
  List.length (z_seq start len) = len.
Proof.
  revert start. induction len as [|len IH]; intro start; simpl;
    [reflexivity | rewrite IH; reflexivity].
Qed.




(** C8 at the reader without an epoch: the first resumption raises and the
    reader is as it was. *)
Lemma pulses_requires_epoch_witness :
  next (pulses (fun _ => 1%Q) 0) millisecond_reader =
  (Raise (NotImplementedError
            "Cannot use 'pulses(...)' if there is no MJD in inf file"),
   millisecond_reader, Finished).
Proof.
  apply (proj1 (pulses_requires_epoch millisecond_reader (fun _ => 1%Q) 0)).
  reflexivity.
Defined.

(* ------------------------------------------------------------------ *)
(** * Further properties of the reader *)

(** ** Reset *)

Lemma state_after_rewind_idem (r : Datfile) :
  state_after_rewind (state_after_rewind r) = state_after_rewind r.
Proof.
  unfold state_after_rewind. simpl.
  destruct (infodata.epoch (infdata r)); reflexivity.
Qed.

(** X1.  [rewind] never raises, whatever was read before.  It leaves the
    sample index, the file position and both times at 0, the file contents
    and the metadata as they were, and both MJD attributes at the epoch
    when there is one (untouched when there is none).  A second [rewind]
    changes nothing more. *)
Theorem rewind_restores (r : Datfile) :
  exists r',
    rewind r = (Ok tt, r') /\
    currsample r' = 0 /\
    offset (datfile r') = 0 /\
    samples (datfile r') = samples (datfile r) /\
    currtime_actual r' = 0%Q /\
    currtime_desired r' = 0%Q /\
    infdata r' = infdata r /\
    (forall e, infodata.epoch (infdata r) = Some e ->
       currmjd_actual r' = Some e /\ currmjd_desired r' = Some e) /\
    (infodata.epoch (infdata r) = None ->
       currmjd_actual r' = currmjd_actual r /\
       currmjd_desired r' = currmjd_desired r) /\
    rewind r' = (Ok tt, r').
Proof.
  exists (state_after_rewind r).
  split; [apply rewind_eq|].
  split; [reflexivity|]. split; [reflexivity|]. split; [reflexivity|].
  split; [reflexivity|]. split; [reflexivity|]. split; [reflexivity|].
  split; [|split].
  - intros e He. unfold state_after_rewind. simpl. rewrite He. auto.
  - intros He. unfold state_after_rewind. simpl. rewrite He. auto.
  - rewrite rewind_eq, state_after_rewind_idem. reflexivity.
Qed.

(* ------------------------------------------------------------------ *)
(** ** SeekTo followed by a read *)





(** X3.  A seek that rounds to a negative sample is refused by the file:
    [seek_to] raises and leaves the reader rewound, at sample 0, not where
    it was. *)
Theorem seek_to_negative (r : Datfile) (T : Q)
    (Hdt : ~ (infodata.dt (infdata r) == 0)%Q)
    (Hsize : 0 < bytes_per_sample r)
    (Hneg : rint (T / infodata.dt (infdata r)) < 0) :
  exists e r',
    seek_to T r = (Raise e, r') /\
    rewind r = (Ok tt, r') /\
    currsample r' = 0 /\ offset (datfile r') = 0.
Proof.
  exists (ValueError "negative seek position"), (state_after_rewind r).
  split; [|split; [apply rewind_eq | split; reflexivity]].
  apply seek_to_refused; [exact Hdt|]. unfold seek_sample. nia.
Qed.

(** X3 at the ten-sample reader, three samples in: a seek to -2 s. *)
Lemma seek_to_negative_witness :
  exists e r',
    seek_to (-2) (snd (read_Nsamples 3 scenario_reader)) = (Raise e, r') /\
    currsample r' = 0.
Proof.
  destruct (seek_to_negative (snd (read_Nsamples 3 scenario_reader)) (-2))
    as (e & r' & Hs & _ & Hc & _).
  - simpl. intro E. discriminate E.
  - reflexivity.
  - reflexivity.
  - exists e, r'. split; assumption.
Defined.

(* ------------------------------------------------------------------ *)
(** ** ReadTo and ReadAll *)

(** X4.  [read_to(target)] on a reader in step with its file: a target from
    the current sample up to [N] returns the samples from the current one
    up to, not including, index [target] and leaves the reader at [target];
    [-1] stands for [N], the end of the file; a target beyond [N] returns
    [None] and leaves the reader as it was. *)
Theorem read_to_target (r : Datfile) (target : Z)
    (Hok : mjd_attrs_ok r) (Hstep : file_in_step r)
    (Hin : currsample r <= infodata.N (infdata r)) :
  (currsample r <= target <= infodata.N (infdata r) ->
   exists r',
     read_to target r =
       (Ok (Some (firstn (Z.to_nat (target - currsample r))
                    (skipn (Z.to_nat (currsample r)) (samples (datfile r))))),
        r') /\
     currsample r' = target) /\
  (exists r',
     read_to (-1) r =
       (Ok (Some (firstn (Z.to_nat (infodata.N (infdata r) - currsample r))
                    (skipn (Z.to_nat (currsample r)) (samples (datfile r))))),
        r') /\
     currsample r' = infodata.N (infdata r)) /\
  (infodata.N (infdata r) < target -> read_to target r = (Ok None, r)).
Proof.
  assert (Hc : 0 <= currsample r) by (destruct Hstep as (_ & H & _); exact H).
  split; [|split].
  - intros Ht. unfold read_to, bind, get.
    destruct (target =? -1) eqn:E; [apply Z.eqb_eq in E; lia|].
    rewrite read_Nsamples_within by (assumption || lia).
    rewrite block_of_in_step by (assumption || lia).
    eexists. split; [reflexivity|]. simpl. lia.
  - unfold read_to, bind, get. cbn [Z.eqb Pos.eqb].
    rewrite read_Nsamples_within by (assumption || lia).
    rewrite block_of_in_step by (assumption || lia).
    eexists. split; [reflexivity|]. simpl. lia.
  - intros Ht. unfold read_to, bind, get.
    destruct (target =? -1) eqn:E; [apply Z.eqb_eq in E; lia|].
    apply read_Nsamples_past_end. lia.
Qed.

(** X4 at the ten-sample reader: read to sample 4, then to the end. *)
Lemma read_to_target_witness :
  exists r1 r2,
    read_to 4 scenario_reader =
      (Ok (Some (map inject_Z [1; 2; 3; 4])), r1) /\
    read_to (-1) r1 = (Ok (Some (map inject_Z [5; 6; 7; 8; 9; 10])), r2) /\
    currsample r2 = 10.
Proof.
  destruct (read_to_target scenario_reader 4 scenario_reader_attrs
              scenario_reader_in_step) as (H1 & _ & _); [simpl; lia|].
  destruct H1 as (r1 & E1 & Hc1); [simpl; lia|].
  exists r1, (snd (read_to (-1) r1)).
  split; [exact E1|].
  inversion E1; subst r1. clear E1. vm_compute. repeat split.
Defined.

(** X5.  [read_all], from any position, on a file that holds the [N >= 0]
    samples of the metadata: the result is the first [N] samples of the
    file and the reader is at sample [N], with an actual time of [N]
    sample intervals; the desired time is not advanced, it is left at 0. *)
Theorem read_all_whole_series (r : Datfile)
    (Hsize : 0 < bytes_per_sample r)
    (HN : 0 <= infodata.N (infdata r))
    (Hfile : infodata.N (infdata r)
             <= Z.of_nat (List.length (samples (datfile r)))) :
  exists r',
    read_all r =
      (Ok (Some (firstn (Z.to_nat (infodata.N (infdata r)))
                   (samples (datfile r)))), r') /\
    currsample r' = infodata.N (infdata r) /\
    offset (datfile r') = infodata.N (infdata r) * bytes_per_sample r /\
    (currtime_actual r' ==
       infodata.dt (infdata r) * inject_Z (infodata.N (infdata r)))%Q /\
    currtime_desired r' = 0%Q.
Proof.
  pose proof (mjd_attrs_ok_after_rewind r) as Hok0.
  pose proof (file_in_step_after_rewind r Hsize Hfile) as Hf0.
  unfold read_all. unfold bind at 1. rewrite rewind_eq.
  unfold bind, get.
  set (r0 := state_after_rewind r) in *.
  change (infdata r0) with (infdata r).
  rewrite (__read_within (infodata.N (infdata r)) r0)
    by (exact Hok0 || (unfold r0, state_after_rewind; simpl; lia)).
  rewrite (block_of_in_step _ r0 HN Hf0).
  pose proof (file_in_step_after_read (infodata.N (infdata r)) r0 HN Hf0)
    as Hf1.
  eexists. split; [reflexivity|].
  split; [reflexivity|].
  split.
  - destruct Hf1 as (_ & _ & Ho & _);
      [unfold r0, state_after_rewind; simpl; lia|].
    rewrite Ho. reflexivity.
  - split; [simpl; ring | reflexivity].
Qed.

(** X5 at the ten-sample reader, four samples in. *)
Lemma read_all_whole_series_witness :
  exists r',
    read_all (snd (read_Nsamples 4 scenario_reader)) =
      (Ok (Some (map inject_Z [1; 2; 3; 4; 5; 6; 7; 8; 9; 10])), r') /\
    currsample r' = 10 /\
    currtime_desired r' = 0%Q.
Proof.
  destruct (read_all_whole_series (snd (read_Nsamples 4 scenario_reader)))
    as (r' & E & Hc & _ & _ & Hd).
  - reflexivity.
  - simpl. lia.
  - simpl. lia.
  - exists r'. repeat split; assumption.
Defined.

(* ------------------------------------------------------------------ *)
(** ** The sample index and the desired time *)







(* ------------------------------------------------------------------ *)
(** ** A duration read after [read_all] *)





(* ------------------------------------------------------------------ *)
(** ** The pulses tile the series *)





Section PulseTiling.
Variable f : Q -> Q.
Variable r : Datfile.

Hypothesis f_nonneg : forall m, (0 <= f m)%Q.
Hypothesis dt_pos : (0 < infodata.dt (infdata r))%Q.
Hypothesis with_epoch : infodata.has_epoch (infdata r) = true.
Hypothesis size_pos : 0 < bytes_per_sample r.
Hypothesis file_holds :
  infodata.N (infdata r) <= Z.of_nat (List.length (samples (datfile r))).

















End PulseTiling.


(* ------------------------------------------------------------------ *)
(** ** Pulse iteration with a constant period: the reads behind the pulses *)



Section ConstantPeriod.
Variable P : Q.
Variable r : Datfile.

Hypothesis P_nonneg : (0 <= P)%Q.
Hypothesis dt_pos : (0 < infodata.dt (infdata r))%Q.
Hypothesis with_epoch : infodata.has_epoch (infdata r) = true.
Hypothesis size_pos : 0 < bytes_per_sample r.
Hypothesis file_holds :
  infodata.N (infdata r) <= Z.of_nat (List.length (samples (datfile r))).






End ConstantPeriod.



(* ------------------------------------------------------------------ *)
(** ** The windows of the baseline estimation *)




Section BaselineWindows.
Variable median : list Q -> Q.
Variable span : Q.
Variable r : Datfile.

Hypothesis span_nonneg : (0 <= span)%Q.
Hypothesis dt_pos : (0 < infodata.dt (infdata r))%Q.
Hypothesis size_pos : 0 < bytes_per_sample r.
Hypothesis file_holds :
  infodata.N (infdata r) <= Z.of_nat (List.length (samples (datfile r))).


End BaselineWindows.




(* ------------------------------------------------------------------ *)
(** ** What the load-time correction touches *)

(** X11.  [correct_infdata] changes nothing but [lofreq] and [epoch],
    whatever it returns or raises: telescope, instrument, sample count,
    sample interval, dispersion measure, bandwidth and channel width stay as
    loaded.  [lofreq] is left alone or moved by half a channel width, down
    or up; [epoch] is left alone or, when it is there and positive, moved
    forward by 0.039365 s or 0.039450 s in days.  For a telescope other
    than ["GBT"] the whole record is left alone. *)
Theorem correct_infdata_frame (inf : infodata.t) :
  let inf' := snd (correct_infdata inf) in
  infodata.telescope inf' = infodata.telescope inf /\
  infodata.instrument inf' = infodata.instrument inf /\
  infodata.N inf' = infodata.N inf /\
  infodata.dt inf' = infodata.dt inf /\
  infodata.DM inf' = infodata.DM inf /\
  infodata.BW inf' = infodata.BW inf /\
  infodata.chan_width inf' = infodata.chan_width inf /\
  (infodata.lofreq inf' = infodata.lofreq inf \/
   infodata.lofreq inf' =
     (infodata.lofreq inf - (1 # 2) * infodata.chan_width inf)%Q \/
   infodata.lofreq inf' =
     (infodata.lofreq inf + (1 # 2) * infodata.chan_width inf)%Q) /\
  (infodata.epoch inf' = infodata.epoch inf \/
   exists e d,
     infodata.epoch inf = Some e /\ (0 < e)%Q /\
     infodata.epoch inf' = Some (e + d)%Q /\
     (d = ((39365 # 1000000) / 86400)%Q \/
      d = ((39450 # 1000000) / 86400)%Q)) /\
  (infodata.telescope inf <> "GBT"%string ->
   correct_infdata inf = (Ok tt, inf)).
Proof.
  assert (Hbump : forall d i,
            let i' := snd (bump_epoch_if_positive d i) in
            infodata.telescope i' = infodata.telescope i /\
            infodata.instrument i' = infodata.instrument i /\
            infodata.N i' = infodata.N i /\
            infodata.dt i' = infodata.dt i /\
            infodata.DM i' = infodata.DM i /\
            infodata.BW i' = infodata.BW i /\
            infodata.chan_width i' = infodata.chan_width i /\
            infodata.lofreq i' = infodata.lofreq i /\
            (infodata.epoch i' = infodata.epoch i \/
             exists e, infodata.epoch i = Some e /\ (0 < e)%Q /\
                       infodata.epoch i' = Some (e + d)%Q)).
  { intros d i. unfold bump_epoch_if_positive.
    destruct (infodata.epoch i) as [e|] eqn:E; simpl.
    - destruct (Qlt_bool 0 e) eqn:Ep; simpl; rewrite ?E.
      + repeat split. right. exists e. apply Qlt_bool_true in Ep. auto.
      + repeat split. auto.
    - rewrite E. repeat split. auto. }
  cbv zeta. unfold correct_infdata.
  destruct (String.eqb (infodata.telescope inf) "GBT") eqn:Et.
  2:{ simpl. repeat split; auto. }
  assert (Hlast : infodata.telescope inf <> "GBT"%string ->
                  forall X : result unit * infodata.t, X = (Ok tt, inf)).
  { intros Hne. apply String.eqb_eq in Et. contradiction. }
  destruct (truthy _ && _); [|simpl; repeat split; auto].
  destruct (Qeq_bool (infodata.chan_width inf) (800 / 1024)).
  { match goal with |- context [bump_epoch_if_positive ?d ?i] =>
      destruct (Hbump d i) as (H1 & H2 & H3 & H4 & H5 & H6 & H7 & H8 & H9)
    end.
    rewrite H1, H2, H3, H4, H5, H6, H7, H8. simpl.
    repeat split; auto.
    destruct H9 as [H9 | (e & He & Hp & H9)]; [left; exact H9|].
    right. exists e, ((39365 # 1000000) / 86400)%Q. auto. }
  destruct (Qeq_bool (infodata.chan_width inf) (800 / 2048)).
  { cbn [infodata.epoch infodata.set_lofreq].
    destruct (infodata.epoch inf) as [e|] eqn:Ee;
      [|simpl; rewrite ?Ee; repeat split; auto].
    destruct (Qlt_bool e 53700).
    - destruct (Qlt_bool 0 e); simpl; rewrite ?Ee; repeat split; auto.
    - match goal with |- context [bump_epoch_if_positive ?d ?i] =>
        destruct (Hbump d i) as (H1 & H2 & H3 & H4 & H5 & H6 & H7 & H8 & H9)
      end.
      rewrite H1, H2, H3, H4, H5, H6, H7, H8. simpl.
      repeat split; auto.
      destruct H9 as [H9 | (e' & He & Hp & H9)];
        [left; rewrite H9; simpl; exact Ee|].
      simpl in He. rewrite Ee in He. inversion He; subst e'.
      right. exists e, ((39365 # 1000000) / 86400)%Q. auto. }
  destruct (Qeq_bool (infodata.chan_width inf) (50 / 1024)
            || Qeq_bool (infodata.chan_width inf) (50 / 2048)).
  { match goal with |- context [bump_epoch_if_positive ?d ?i] =>
      destruct (Hbump d i) as (H1 & H2 & H3 & H4 & H5 & H6 & H7 & H8 & H9)
    end.
    rewrite H1, H2, H3, H4, H5, H6, H7, H8. simpl.
    repeat split; auto.
    destruct H9 as [H9 | (e & He & Hp & H9)]; [left; exact H9|].
    right. exists e, ((39450 # 1000000) / 86400)%Q. auto. }
  simpl. repeat split; auto.
Qed.

(** X12.  Spigot metadata without an epoch cannot be corrected: for
    telescope ["GBT"], a sample interval that passes the 81.92 us test, an
    instrument that is a Spigot or is not a GUPPI, and one of the four
    tabulated channel widths, [correct_infdata] reads the absent [epoch] and
    raises [AttributeError]; so does the construction of a reader on such a
    file, although the reader itself allows for metadata without an
    epoch. *)
Theorem correct_infdata_needs_epoch (inf : infodata.t)
    (Htel : infodata.telescope inf = "GBT"%string)
    (Hdt : (np_fmod (infodata.dt inf) lit_8_192e_05 < lit_1e_12)%Q)
    (Hins : contains "spigot" (lower (infodata.instrument inf)) = true \/
            contains "guppi" (lower (infodata.instrument inf)) = false)
    (Hcw : (infodata.chan_width inf == 800 / 1024)%Q \/
           (infodata.chan_width inf == 800 / 2048)%Q \/
           (infodata.chan_width inf == 50 / 1024)%Q \/
           (infodata.chan_width inf == 50 / 2048)%Q)
    (Hep : infodata.epoch inf = None) :
  fst (correct_infdata inf) = Raise (AttributeError "epoch") /\
  (forall env datfn itemsize content,
     endswith datfn ".dat" = true ->
     open_file env datfn = Ok content ->
     load_infodata env (drop_last 4 datfn ++ ".inf")%string = Ok inf ->
     __init__ env datfn itemsize = Raise (AttributeError "epoch")).
Proof.
  assert (Hc : fst (correct_infdata inf) = Raise (AttributeError "epoch")).
  { unfold correct_infdata. rewrite Htel. cbn [String.eqb Ascii.eqb Bool.eqb].
    apply Qlt_bool_true in Hdt. rewrite Hdt.
    assert (Hg : contains "spigot" (lower (infodata.instrument inf))
                 || negb (contains "guppi" (lower (infodata.instrument inf)))
                 = true).
    { destruct Hins as [H | H]; rewrite H; [reflexivity|].
      destruct (contains "spigot" _); reflexivity. }
    rewrite Hg. cbn [float_of_bool np_fabs Qabs truthy Qeq_bool andb negb].
    change (truthy (np_fabs (float_of_bool true))) with true. cbn [andb].
    unfold bump_epoch_if_positive.
    cbn [infodata.epoch infodata.set_lofreq]. rewrite Hep.
    destruct (Qeq_bool (infodata.chan_width inf) (800 / 1024)) eqn:E1;
      [reflexivity|].
    destruct (Qeq_bool (infodata.chan_width inf) (800 / 2048)) eqn:E2;
      [reflexivity|].
    destruct (Qeq_bool (infodata.chan_width inf) (50 / 1024)) eqn:E3;
      [reflexivity|].
    destruct (Qeq_bool (infodata.chan_width inf) (50 / 2048)) eqn:E4;
      [reflexivity|].
    exfalso.
    destruct Hcw as [H | [H | [H | H]]]; apply Qeq_bool_iff in H; congruence. }
  split; [exact Hc|].
  intros env datfn itemsize content Hend Hopen Hload.
  unfold __init__. rewrite Hend, Hopen, Hload.
  destruct (correct_infdata inf) as [[[]|x] inf']; simpl in Hc;
    [discriminate|]. inversion Hc. reflexivity.
Qed.

(** X12 at a Spigot record in the 50 MHz, 1024-lag mode, without epoch. *)
Lemma correct_infdata_needs_epoch_witness :
  fst (correct_infdata
         (infodata.mk "GBT" "Spigot" 10000 lit_8_192e_05 None 0 1400 50
            (50 / 1024)))
  = Raise (AttributeError "epoch").
Proof.
  apply (correct_infdata_needs_epoch
           (infodata.mk "GBT" "Spigot" 10000 lit_8_192e_05 None 0 1400 50
              (50 / 1024))).
  - reflexivity.
  - reflexivity.
  - left. reflexivity.
  - right. right. left. reflexivity.
  - reflexivity.
Defined.

(* ------------------------------------------------------------------ *)
(** ** Construction on a [.dat] path *)

Lemma substring_split (s : string) :
  forall k, (k <= String.length s)%nat ->
    (substring 0 k s ++ substring k (String.length s - k) s)%string = s.
Proof.
  induction s as [|c s IH]; intros k Hk.
  - destruct k; reflexivity.
  - destruct k as [|k].
    + simpl. f_equal.
      specialize (IH 0%nat (Nat.le_0_l _)).
      rewrite Nat.sub_0_r in IH.
      assert (E0 : substring 0 0 s = EmptyString) by (destruct s; reflexivity).
      rewrite E0 in IH. exact IH.
    + simpl in *. f_equal. apply IH. lia.
Qed.

(** A path that ends with a suffix is the rest of it followed by the
    suffix. *)
Lemma endswith_split (s suffix : string) :
  endswith s suffix = true ->
  (drop_last (String.length suffix) s ++ suffix)%string = s.
Proof.
  unfold endswith, drop_last. intro H.
  apply andb_true_iff in H. destruct H as [Hle He].
  apply Nat.leb_le in Hle. apply String.eqb_eq in He.
  assert (Hk : (String.length s - String.length suffix <= String.length s)%nat)
    by lia.
  pose proof (substring_split s _ Hk) as H.
  replace (String.length s - (String.length s - String.length suffix))%nat
    with (String.length suffix) in H by lia.
  rewrite He in H. exact H.
Qed.

(** X13.  Construction on a path that ends with [.dat], when the file
    opens, the sidecar loads and the correction goes through: the sidecar
    asked for is the path with [.inf] in place of [.dat]; the reader holds
    the corrected metadata and the contents of the file, and it is rewound:
    sample 0, file position 0, both times 0, both MJDs at the corrected
    epoch when there is one.  When the file does not open or the sidecar
    does not load, construction raises that error. *)
Theorem init_on_dat_path (env : environment) (datfn : string)
    (itemsize : Z) (Hend : endswith datfn ".dat" = true) :
  (forall x, open_file env datfn = Raise x ->
     __init__ env datfn itemsize = Raise x) /\
  (forall content x,
     open_file env datfn = Ok content ->
     load_infodata env (drop_last 4 datfn ++ ".inf")%string = Raise x ->
     __init__ env datfn itemsize = Raise x) /\
  (forall content inf inf',
     open_file env datfn = Ok content ->
     load_infodata env (drop_last 4 datfn ++ ".inf")%string = Ok inf ->
     correct_infdata inf = (Ok tt, inf') ->
     exists r,
       __init__ env datfn itemsize = Ok r /\
       (basefn r ++ ".dat")%string = datfn /\
       inffn r = (basefn r ++ ".inf")%string /\
       infdata r = inf' /\
       datfile r = mkfile content 0 /\
       bytes_per_sample r = itemsize /\
       currsample r = 0 /\
       currtime_actual r = 0%Q /\ currtime_desired r = 0%Q /\
       currmjd_actual r = infodata.epoch inf' /\
       currmjd_desired r = infodata.epoch inf' /\
       mjd_attrs_ok r).
Proof.
  pose proof (endswith_split datfn ".dat" Hend) as Hsplit.
  change (String.length ".dat") with 4%nat in Hsplit.
  split; [|split].
  - intros x Ho. unfold __init__. rewrite Hend, Ho. reflexivity.
  - intros content x Ho Hl. unfold __init__. rewrite Hend, Ho, Hl.
    reflexivity.
  - intros content inf inf' Ho Hl Hc. unfold __init__.
    rewrite Hend, Ho, Hl, Hc, rewind_eq.
    eexists. split; [reflexivity|].
    split; [exact Hsplit|].
    split; [reflexivity|]. split; [reflexivity|]. split; [reflexivity|].
    split; [reflexivity|]. split; [reflexivity|]. split; [reflexivity|].
    split; [reflexivity|].
    split; [|split].
    + unfold state_after_rewind. simpl.
      destruct (infodata.epoch inf'); reflexivity.
    + unfold state_after_rewind. simpl.
      destruct (infodata.epoch inf'); reflexivity.
    + apply mjd_attrs_ok_after_rewind.
Qed.

(** X13 at the path [obs.dat] in the scenario environment. *)
Lemma init_on_dat_path_witness :
  exists r,
    __init__ scenario_env "obs.dat" 4 = Ok r /\
    inffn r = "obs.inf"%string /\
    currsample r = 0.
Proof.
  destruct (init_on_dat_path scenario_env "obs.dat" 4 eq_refl)
    as (_ & _ & H).
  destruct (H (map inject_Z [1; 2; 3; 4; 5; 6; 7; 8; 9; 10])
              scenario_inf scenario_inf eq_refl eq_refl eq_refl)
    as (r & E & Hb & Hi & _ & _ & _ & Hc & _).
  exists r. split; [exact E|]. split; [|exact Hc].
  rewrite Hi. inversion E. reflexivity.
Defined.
